(** * projen: the standard project and its renovatebot component

    A shallow embedding of [StandardProject] (standard-project.ts) and
    [Renovatebot] (renovatebot.ts).  Objects that TypeScript shares by
    reference ([Task]s) live in a store indexed by object identity; methods
    are computations in a state-and-exception monad over the project. *)

From stdpp Require Import base option list strings gmap.

Local Open Scope string_scope.
Local Open Scope list_scope.

(** ** Data *)

(** Identity of a [Task] object: its index in the store of the project. *)
Abbreviation ref := nat.

(** [TaskOptions] as the constructor uses it: [description] and [env]. *)
Record TaskOptions := mkTaskOptions {
  opt_description : option string;
  opt_env : option (gmap string string);
}.

(** The empty object literal [{}]. *)
Definition no_options : TaskOptions :=
  {| opt_description := None; opt_env := None |}.

(** Modelled from the spec: class [Task] of ./task, which is not part of the
    sources.  A task has a name (its key in the registry), an optional
    description, an environment and the ordered list of the tasks it spawns,
    held by reference. *)
Record Task := mkTask {
  task_name : string;
  task_description : option string;
  task_env : gmap string string;
  task_spawns : list ref;
}.

(** A dependency as renovatebot.ts reads it: [dep.name] and [dep.version]. *)
Record Dependency := mkDependency {
  dep_name : string;
  dep_version : option string;
}.

(** What [deps.all] enumerates. *)
Record Dependencies := mkDependencies {
  all : list Dependency;
}.

(** The six tasks that the getters [buildTask] ... [packageTask] read from
    [projectBuild]. *)
Record ProjectBuild := mkProjectBuild {
  pb_buildTask : ref;
  pb_compileTask : ref;
  pb_testTask : ref;
  pb_preCompileTask : ref;
  pb_postCompileTask : ref;
  pb_packageTask : ref;
}.

(** [GitAttributesFile] (./gitattributes) is outside the sources: the model
    keeps its [path] and the calls [addAttributes(glob, attr)] made on it. *)
Record GitAttributesFile := mkGitAttributesFile {
  ga_path : string;
  ga_attributes : list (string * string);
}.

(** [IgnoreFile] (./ignore-file) is outside the sources: the model keeps its
    path and the calls [exclude], [include] and [addPatterns] made on it, in
    order. *)
Inductive IgnoreEntry :=
  | Exclude (pattern : string)
  | Include (pattern : string)
  | AddPatterns (pattern : string).

Record IgnoreFile := mkIgnoreFile {
  if_path : string;
  if_entries : list IgnoreEntry;
}.

(** *** Renovatebot: options, schedule intervals, component, configuration *)

Record RenovatebotOptions := mkRenovatebotOptions {
  scheduleInterval : option (list string);
  ignore : option (list string);
  ignoreProjen : option bool;
  labels : option (list string);
}.

(** [enum RenovatebotScheduleInterval]: every member is its string. *)
Module RenovatebotScheduleInterval.
Definition ANY_TIME : string := "at any time".
Definition EARLY_MONDAYS : string := "before 3am on Monday".
Definition DAILY : string := "before 2am".
Definition WEEKLY : string := EARLY_MONDAYS.
Definition MONTHLY : string := "before 3am on the first day of the month".
Definition QUARTERLY : string := "every 3 months on the first day of the month".
Definition WEEKENDS : string := "every weekend".
Definition WEEKDAYS : string := "every weekday".
End RenovatebotScheduleInterval.

Record Renovatebot := mkRenovatebot {
  rb_explicitIgnores : list string;
  rb_scheduleInterval : list string;
  rb_labels : option (list string);
}.

Record PackageRule := mkPackageRule {
  matchDepTypes : list string;
  matchUpdateTypes : list string;
  groupName : string;
}.

(** The object literal [config] of [createRenovateConfiguration]. *)
Record RenovateConfig := mkRenovateConfig {
  cfg_labels : option (list string);
  cfg_schedule : list string;
  cfg_extends : list string;
  cfg_packageRules : list PackageRule;
  cfg_ignoreDeps : list string;
}.

(** [JsonFile] (./json) is outside the sources: the model keeps the path
    and the options a file is constructed with.  Its [obj] is the renovate
    configuration, or the file manifest, a thunk over [this.files] that runs
    at synthesis. *)
Inductive JsonObj :=
  | ManifestObj
  | RenovateObj (config : RenovateConfig).

Record JsonFile := mkJsonFile {
  jf_path : string;
  jf_obj : JsonObj;
  jf_omitEmpty : option bool;
  jf_committed : option bool;
}.

(** What the [Component] constructor (./component, outside the sources)
    registers with the project. *)
Inductive Component :=
  | RenovatebotComponent (bot : Renovatebot).

(** *** The project *)

(** The fields of [StandardProject], the store of its [Task] objects, and
    the files and components registered with it.  [defaultTask] and
    [ejectTask] are the two optional fields of the class; a field that the
    constructor has not assigned yet holds an empty placeholder. *)
Record StandardProject := mkStandardProject {
  ejected : bool;
  heap : list Task;
  gitignore : IgnoreFile;
  gitattributes : GitAttributesFile;
  tasks : list (string * ref);
  deps : Dependencies;
  projenCommand : string;
  defaultTask : option ref;
  ejectTask : option ref;
  projectBuild : option ProjectBuild;
  files : list JsonFile;
  components : list Component;
}.

Definition set_heap (h : list Task) (p : StandardProject) : StandardProject :=
  mkStandardProject (ejected p) h (gitignore p) (gitattributes p) (tasks p)
    (deps p) (projenCommand p) (defaultTask p) (ejectTask p) (projectBuild p)
    (files p) (components p).

Definition set_gitignore (g : IgnoreFile) (p : StandardProject) : StandardProject :=
  mkStandardProject (ejected p) (heap p) g (gitattributes p) (tasks p)
    (deps p) (projenCommand p) (defaultTask p) (ejectTask p) (projectBuild p)
    (files p) (components p).

Definition set_gitattributes (g : GitAttributesFile) (p : StandardProject)
  : StandardProject :=
  mkStandardProject (ejected p) (heap p) (gitignore p) g (tasks p)
    (deps p) (projenCommand p) (defaultTask p) (ejectTask p) (projectBuild p)
    (files p) (components p).

Definition set_tasks (t : list (string * ref)) (p : StandardProject)
  : StandardProject :=
  mkStandardProject (ejected p) (heap p) (gitignore p) (gitattributes p) t
    (deps p) (projenCommand p) (defaultTask p) (ejectTask p) (projectBuild p)
    (files p) (components p).

Definition set_deps (d : Dependencies) (p : StandardProject) : StandardProject :=
  mkStandardProject (ejected p) (heap p) (gitignore p) (gitattributes p)
    (tasks p) d (projenCommand p) (defaultTask p) (ejectTask p)
    (projectBuild p) (files p) (components p).

Definition set_projenCommand (c : string) (p : StandardProject)
  : StandardProject :=
  mkStandardProject (ejected p) (heap p) (gitignore p) (gitattributes p)
    (tasks p) (deps p) c (defaultTask p) (ejectTask p) (projectBuild p)
    (files p) (components p).

Definition set_defaultTask (t : option ref) (p : StandardProject)
  : StandardProject :=
  mkStandardProject (ejected p) (heap p) (gitignore p) (gitattributes p)
    (tasks p) (deps p) (projenCommand p) t (ejectTask p) (projectBuild p)
    (files p) (components p).

Definition set_ejectTask (t : option ref) (p : StandardProject)
  : StandardProject :=
  mkStandardProject (ejected p) (heap p) (gitignore p) (gitattributes p)
    (tasks p) (deps p) (projenCommand p) (defaultTask p) t (projectBuild p)
    (files p) (components p).

Definition set_projectBuild (b : option ProjectBuild) (p : StandardProject)
  : StandardProject :=
  mkStandardProject (ejected p) (heap p) (gitignore p) (gitattributes p)
    (tasks p) (deps p) (projenCommand p) (defaultTask p) (ejectTask p) b
    (files p) (components p).

Definition set_files (f : list JsonFile) (p : StandardProject) : StandardProject :=
  mkStandardProject (ejected p) (heap p) (gitignore p) (gitattributes p)
    (tasks p) (deps p) (projenCommand p) (defaultTask p) (ejectTask p)
    (projectBuild p) f (components p).

Definition set_components (c : list Component) (p : StandardProject)
  : StandardProject :=
  mkStandardProject (ejected p) (heap p) (gitignore p) (gitattributes p)
    (tasks p) (deps p) (projenCommand p) (defaultTask p) (ejectTask p)
    (projectBuild p) (files p) c.

(** ** The monad: project state, and exceptions that keep the state reached *)

Inductive Error :=
  | DuplicateTaskError (name : string)
  | SelfSpawnError
  | DanglingReference (r : ref).

Definition M (A : Type) : Type :=
  StandardProject → (Error + A) * StandardProject.

#[global] Instance M_ret : MRet M := λ A x p, (inr x, p).

#[global] Instance M_bind : MBind M := λ A B f m p,
  match m p with
  | (inr x, p') => f x p'
  | (inl e, p') => (inl e, p')
  end.

Definition throw {A} (e : Error) : M A := λ p, (inl e, p).
Definition gets {A} (f : StandardProject → A) : M A := λ p, (inr (f p), p).
Definition modify (f : StandardProject → StandardProject) : M unit :=
  λ p, (inr tt, f p).

(** Reading through a reference.  A TypeScript value of type [Task] always
    designates an object, so the error branch is reached by no call the
    program can make; it keeps the function total on a bare index. *)
Definition deref (r : ref) : M Task := λ p,
  match heap p !! r with
  | Some T => (inr T, p)
  | None => (inl (DanglingReference r), p)
  end.

(** [new Task(...)]: a fresh object at the end of the store. *)
Definition alloc (T : Task) : M ref := λ p,
  (inr (length (heap p)), set_heap (heap p ++ [T]) p).

(** ** The task registry and the tasks *)

(** Modelled from the spec: [get(name)] of class [Tasks] (./tasks, not part
    of the sources): lookup in the insertion-ordered mapping, no side
    effects. *)
Fixpoint Tasks_get (name : string) (ts : list (string * ref)) : option ref :=
  match ts with
  | [] => None
  | (n, r) :: ts' => if decide (n = name) then Some r else Tasks_get name ts'
  end.

(** Modelled from the spec: [all()] of class [Tasks]: the tasks in insertion
    order. *)
Definition Tasks_all (ts : list (string * ref)) : list ref := ts.*2.

(** Modelled from the spec: the constructor of class [Task]: a task with
    the given description and environment, and nothing spawned yet. *)
Definition Task_new (name : string) (options : TaskOptions) : Task :=
  {| task_name := name;
     task_description := opt_description options;
     task_env := default ∅ (opt_env options);
     task_spawns := [] |}.

(** Modelled from the spec: [addTask(name, options)] of class [Tasks]: fails
    with [DuplicateTaskError] if [name] already exists; otherwise constructs
    the task, stores it at the end of the mapping and returns it. *)
Definition Tasks_addTask (name : string) (options : TaskOptions) : M ref :=
  ts ← gets tasks;
  match Tasks_get name ts with
  | Some _ => throw (DuplicateTaskError name)
  | None =>
      t ← alloc (Task_new name options);
      modify (λ p, set_tasks (tasks p ++ [(name, t)]) p);;
      mret t
  end.

(** Dropping every reference to [r] from a spawn list. *)
Definition prune (r : ref) (T : Task) : Task :=
  {| task_name := task_name T;
     task_description := task_description T;
     task_env := task_env T;
     task_spawns := filter (λ c, c ≠ r) (task_spawns T) |}.

(** Pruning [r] from the spawn list of every other registered task. *)
Definition prune_others (r : ref) (ts : list (string * ref)) (h : list Task)
  : list Task :=
  foldr (λ t h', alter (prune r) t h') h (filter (λ t, t ≠ r) (Tasks_all ts)).

(** Modelled from the spec: [removeTask(name)] of class [Tasks]: removes and
    returns the task if present, else returns the absent-value marker; the
    removed task is pruned from the spawn lists of the other tasks (the
    policy the spec recommends). *)
Definition Tasks_removeTask (name : string) : M (option ref) :=
  ts ← gets tasks;
  match Tasks_get name ts with
  | None => mret None
  | Some r =>
      modify (λ p, set_tasks (filter (λ e, e.1 ≠ name) (tasks p)) p);;
      modify (λ p, set_heap (prune_others r (tasks p) (heap p)) p);;
      mret (Some r)
  end.

(** Appending [child] to a spawn list. *)
Definition push_spawn (child : ref) (T : Task) : Task :=
  {| task_name := task_name T;
     task_description := task_description T;
     task_env := task_env T;
     task_spawns := task_spawns T ++ [child] |}.

(** Modelled from the spec: [spawn(childTask)] of class [Task]: fails with
    [SelfSpawnError] if [childTask === this], else appends [childTask] to
    [spawns]. *)
Definition Task_spawn (this child : ref) : M unit :=
  if decide (child = this) then throw SelfSpawnError
  else modify (λ p, set_heap (alter (push_spawn child) this (heap p)) p).

(** ** Methods of [StandardProject] *)

Definition DEFAULT_TASK : string := "default".

(** [addTask(name, props = {})]. *)
Definition addTask (name : string) (props : option TaskOptions) : M ref :=
  Tasks_addTask name (default no_options props).

(** [removeTask(name)]. *)
Definition removeTask (name : string) : M (option ref) :=
  Tasks_removeTask name.

(** The getters over [projectBuild]. *)
Definition buildTask (p : StandardProject) : option ref :=
  pb_buildTask <$> projectBuild p.
Definition compileTask (p : StandardProject) : option ref :=
  pb_compileTask <$> projectBuild p.
Definition testTask (p : StandardProject) : option ref :=
  pb_testTask <$> projectBuild p.
Definition preCompileTask (p : StandardProject) : option ref :=
  pb_preCompileTask <$> projectBuild p.
Definition postCompileTask (p : StandardProject) : option ref :=
  pb_postCompileTask <$> projectBuild p.
Definition packageTask (p : StandardProject) : option ref :=
  pb_packageTask <$> projectBuild p.

(** [addPackageIgnore(_pattern)]: nothing to do at the abstract level. *)
Definition addPackageIgnore (_pattern : string) : M unit := mret tt.

(** A call of [addPatterns], [exclude] or [include] on an ignore file. *)
Definition IgnoreFile_record (e : IgnoreEntry) (f : IgnoreFile) : IgnoreFile :=
  {| if_path := if_path f; if_entries := if_entries f ++ [e] |}.

(** [addGitIgnore(pattern)]. *)
Definition addGitIgnore (pattern : string) : M unit :=
  modify (λ p, set_gitignore (IgnoreFile_record (AddPatterns pattern) (gitignore p)) p).

(** A call of [addAttributes(glob, attr)] on the .gitattributes file. *)
Definition addAttributes (glob attr : string) (f : GitAttributesFile)
  : GitAttributesFile :=
  {| ga_path := ga_path f; ga_attributes := ga_attributes f ++ [(glob, attr)] |}.

(** [annotateGenerated(glob)]. *)
Definition annotateGenerated (glob : string) : M unit :=
  modify (λ p, set_gitattributes
                 (addAttributes glob "linguist-generated" (gitattributes p)) p).

(** [new JsonFile(project, path, options)]: the file is registered with the
    project. *)
Definition JsonFile_new (f : JsonFile) : M unit :=
  modify (λ p, set_files (files p ++ [f]) p).

(** ** Renovatebot *)

(** The constructor of [Renovatebot]: [options.ignore ?? []], then "projen"
    pushed unless [ignoreProjen] is [false]; [options.scheduleInterval ??
    [ANY_TIME]]; [super(project)] registers the component with the project.
    (When [options.ignore] is given, the push lands in the caller's array
    too; nothing here reads that array again.) *)
Definition Renovatebot_new (options : option RenovatebotOptions) : M Renovatebot :=
  let options := default (mkRenovatebotOptions None None None None) options in
  let explicitIgnores := default [] (ignore options) in
  let explicitIgnores :=
    if default true (ignoreProjen options)
    then explicitIgnores ++ ["projen"] else explicitIgnores in
  let bot :=
    {| rb_explicitIgnores := explicitIgnores;
       rb_scheduleInterval :=
         default [RenovatebotScheduleInterval.ANY_TIME] (scheduleInterval options);
       rb_labels := labels options |} in
  modify (λ p, set_components (components p ++ [RenovatebotComponent bot]) p);;
  mret bot.

(** Truthiness of an optional string: defined and not empty. *)
Definition truthy (v : option string) : bool :=
  match v with
  | Some s => bool_decide (s ≠ "")
  | None => false
  end.

(** [[...new Set(xs)]]: every value once, in the order of first insertion. *)
Definition Set_values (xs : list string) : list string :=
  foldl (λ seen x, if decide (x ∈ seen) then seen else seen ++ [x]) [] xs.

Definition renovateIgnore (bot : Renovatebot) (ds : list Dependency)
  : list string :=
  Set_values
    ((dep_name <$> filter (λ dep, truthy (dep_version dep)) ds)
       ++ rb_explicitIgnores bot).

Definition renovateConfig (bot : Renovatebot) (ds : list Dependency)
  : RenovateConfig :=
  {| cfg_labels := rb_labels bot;
     cfg_schedule := rb_scheduleInterval bot;
     cfg_extends :=
       [":preserveSemverRanges"; "config:base"; "group:allNonMajor";
        "group:recommended"; "group:monorepos"];
     cfg_packageRules :=
       [ {| matchDepTypes := ["devDependencies"];
            matchUpdateTypes := ["patch"; "minor"];
            groupName := "devDependencies (non-major)" |} ];
     cfg_ignoreDeps := renovateIgnore bot ds |}.

Definition createRenovateConfiguration (bot : Renovatebot) : M unit :=
  ds ← gets (λ p, all (deps p));
  JsonFile_new
    {| jf_path := "renovate.json5";
       jf_obj := RenovateObj (renovateConfig bot ds);
       jf_omitEmpty := None;
       jf_committed := Some true |}.

Definition preSynthesize (bot : Renovatebot) : M unit :=
  createRenovateConfiguration bot.

(** ** Construction of a [StandardProject] *)

(** Modelled from the spec: what the constructor of the base class leaves
    (./project is not part of the sources): the mode of the project, fixed
    from here on, and no field of [StandardProject] assigned yet. *)
Definition Project_super (ejecting : bool) : StandardProject :=
  {| ejected := ejecting;
     heap := [];
     gitignore := mkIgnoreFile "" [];
     gitattributes := mkGitAttributesFile "" [];
     tasks := [];
     deps := mkDependencies [];
     projenCommand := "";
     defaultTask := None;
     ejectTask := None;
     projectBuild := None;
     files := [];
     components := [] |}.

(** Modelled from the spec: the constructor of class [Tasks]: the registry
    starts with no task. *)
Definition Tasks_new : list (string * ref) := [].

Definition IgnoreFile_new (path : string) : IgnoreFile := mkIgnoreFile path [].

Definition default_task_options : TaskOptions :=
  {| opt_description := Some "Synthesize project files"; opt_env := None |}.

Definition eject_task_options : TaskOptions :=
  {| opt_description := Some "Remove projen from the project";
     opt_env := Some {[ "PROJEN_EJECTING" := "true" ]} |}.

Section Construction.

(** Constants and constructors imported from modules that are not part of
    the sources. *)
Variable PROJEN_VERSION : string.
Variable FILE_MANIFEST : string.
Variable gitattributes_path : string.
Variable ProjenrcOptions : Type.
Variable ProjectBuild_new : M ProjectBuild.
Variable Dependencies_new : M Dependencies.
Variable Projenrc_new : option ProjenrcOptions → M unit.

Record StandardProjectOptions := mkStandardProjectOptions {
  opt_projenCommand : option string;
  opt_projenrcJson : option bool;
  opt_projenrcJsonOptions : option ProjenrcOptions;
  opt_renovatebot : option bool;
  opt_renovatebotOptions : option RenovatebotOptions;
}.

Definition GitAttributesFile_new : GitAttributesFile :=
  mkGitAttributesFile gitattributes_path [].

Definition StandardProject_constructor (options : StandardProjectOptions)
  : M unit :=
  modify (set_gitattributes GitAttributesFile_new);;
  annotateGenerated "/.projen/**";;
  ga ← gets gitattributes;
  annotateGenerated ("/" +:+ ga_path ga);;
  modify (set_gitignore (IgnoreFile_new ".gitignore"));;
  modify (λ p, set_gitignore
                 (IgnoreFile_record (Exclude "node_modules/") (gitignore p)) p);;
  ga ← gets gitattributes;
  modify (λ p, set_gitignore
                 (IgnoreFile_record (Include ("/" +:+ ga_path ga)) (gitignore p)) p);;
  modify (set_tasks Tasks_new);;
  is_ejected ← gets ejected;
  (if is_ejected : bool then
     modify (set_projenCommand "scripts/run-task")
   else
     modify (set_projenCommand (default "npx projen" (opt_projenCommand options)));;
     d ← Tasks_addTask DEFAULT_TASK default_task_options;
     modify (set_defaultTask (Some d));;
     e ← Tasks_addTask "eject" eject_task_options;
     modify (set_ejectTask (Some e));;
     Task_spawn e d;;
     JsonFile_new
       {| jf_path := FILE_MANIFEST;
          jf_obj := ManifestObj;
          jf_omitEmpty := Some true;
          jf_committed := None |});;
  pb ← ProjectBuild_new;
  modify (set_projectBuild (Some pb));;
  ds ← Dependencies_new;
  modify (set_deps ds);;
  (if default false (opt_projenrcJson options)
   then Projenrc_new (opt_projenrcJsonOptions options) else mret tt);;
  (if default false (opt_renovatebot options)
   then Renovatebot_new (opt_renovatebotOptions options);; mret tt
   else mret tt).

(** [new StandardProject(options)], in the mode the base class found. *)
Definition StandardProject_new (ejecting : bool)
  (options : StandardProjectOptions) : (Error + unit) * StandardProject :=
  StandardProject_constructor options (Project_super ejecting).

(** [runTaskCommand(task)]. *)
Definition runTaskCommand (task : ref) : M string :=
  T ← deref task;
  mret ("npx projen@" +:+ PROJEN_VERSION +:+ " " +:+ task_name T).

End Construction.

(** ** Calls on a constructed project *)

Section Calls.

Variable PROJEN_VERSION : string.

(** The methods of [StandardProject], and [spawn] on one of its tasks. *)
Inductive Call :=
  | CallAddTask (name : string) (props : option TaskOptions)
  | CallRemoveTask (name : string)
  | CallRunTaskCommand (task : ref)
  | CallAddPackageIgnore (pattern : string)
  | CallAddGitIgnore (pattern : string)
  | CallAnnotateGenerated (glob : string)
  | CallSpawn (this child : ref).

(** The project after a call, whether it returned or threw. *)
Definition call (c : Call) (p : StandardProject) : StandardProject :=
  match c with
  | CallAddTask name props => (addTask name props p).2
  | CallRemoveTask name => (removeTask name p).2
  | CallRunTaskCommand task => (runTaskCommand PROJEN_VERSION task p).2
  | CallAddPackageIgnore pattern => (addPackageIgnore pattern p).2
  | CallAddGitIgnore pattern => (addGitIgnore pattern p).2
  | CallAnnotateGenerated glob => (annotateGenerated glob p).2
  | CallSpawn this child => (Task_spawn this child p).2
  end.

Definition run (cs : list Call) (p : StandardProject) : StandardProject :=
  foldl (λ q c, call c q) p cs.

End Calls.

(** ** Specifications *)

(** [m] returns from [p], with a value and a state that satisfy [Q]. *)
Definition returns {A} (m : M A) (p : StandardProject)
  (Q : A → StandardProject → Prop) : Prop :=
  ∃ x p', m p = (inr x, p') ∧ Q x p'.

(** What the code outside the sources is relied on to leave alone: the mode
    fields of the project, the name and the spawn list of every task that
    already exists, and the registrations of "default" and "eject". *)
Record task_frame (p p' : StandardProject) : Prop := mk_task_frame {
  frame_ejected : ejected p' = ejected p;
  frame_projenCommand : projenCommand p' = projenCommand p;
  frame_defaultTask : defaultTask p' = defaultTask p;
  frame_ejectTask : ejectTask p' = ejectTask p;
  frame_heap : ∀ r T, heap p !! r = Some T →
    ∃ T', heap p' !! r = Some T' ∧ task_name T' = task_name T
          ∧ task_spawns T' = task_spawns T;
  frame_default :
    Tasks_get DEFAULT_TASK (tasks p') = Tasks_get DEFAULT_TASK (tasks p);
  frame_eject : Tasks_get "eject" (tasks p') = Tasks_get "eject" (tasks p);
}.

(** A constructor of a collaborating class: it returns, within the frame. *)
Definition collaborator {A} (c : M A) : Prop :=
  ∀ p, returns c p (λ _ p', task_frame p p').

(** The names of the tasks in a spawn list. *)
Definition spawn_names (p : StandardProject) (T : Task) : list string :=
  omap (λ r, task_name <$> heap p !! r) (task_spawns T).

(** ** A sample instance of the imported constants and constructors *)

(** Registers a task under [name] unless there is one. *)
Definition ensureTask (name : string) : M ref :=
  ts ← gets tasks;
  match Tasks_get name ts with
  | Some r => mret r
  | None => Tasks_addTask name no_options
  end.

Definition sample_ProjectBuild : M ProjectBuild :=
  pre ← ensureTask "pre-compile";
  c ← ensureTask "compile";
  post ← ensureTask "post-compile";
  t ← ensureTask "test";
  pk ← ensureTask "package";
  b ← ensureTask "build";
  mret (mkProjectBuild b c t pre post pk).

Definition sample_Dependencies : M Dependencies :=
  mret (mkDependencies []).

Definition sample_Projenrc (_ : option string) : M unit := mret tt.

Definition sample_options : StandardProjectOptions string :=
  {| opt_projenCommand := None;
     opt_projenrcJson := Some true;
     opt_projenrcJsonOptions := None;
     opt_renovatebot := Some true;
     opt_renovatebotOptions := None |}.

Definition sample_new (ejecting : bool) : (Error + unit) * StandardProject :=
  StandardProject_new ".projen/files.json" ".gitattributes" string
    sample_ProjectBuild sample_Dependencies sample_Projenrc
    ejecting sample_options.

Definition sample_version : string := "0.0.0".

(** ** Observations used by the further properties *)

(** The list that [createRenovateConfiguration] hands to [new Set]: the names
    of the dependencies with a version, then the explicit ignores. *)
Definition renovateInput (bot : Renovatebot) (ds : list Dependency)
  : list string :=
  (dep_name <$> filter (λ dep, truthy (dep_version dep)) ds)
    ++ rb_explicitIgnores bot.

(** The file that [createRenovateConfiguration] registers for [config]. *)
Definition renovate_json5 (config : RenovateConfig) : JsonFile :=
  {| jf_path := "renovate.json5";
     jf_obj := RenovateObj config;
     jf_omitEmpty := None;
     jf_committed := Some true |}.

(** The calls that a sequence of calls makes on the .gitignore file. *)
Definition gitignore_trace (cs : list Call) : list IgnoreEntry :=
  omap (λ c, match c with
             | CallAddGitIgnore pattern => Some (AddPatterns pattern)
             | _ => None
             end) cs.

(** The calls that a sequence of calls makes on the .gitattributes file. *)
Definition gitattributes_trace (cs : list Call) : list (string * string) :=
  omap (λ c, match c with
             | CallAnnotateGenerated glob => Some (glob, "linguist-generated")
             | _ => None
             end) cs.



(** * Properties *)

(** ** The registry *)

Lemma Tasks_get_app name ts ts' :
  Tasks_get name (ts ++ ts') =
  match Tasks_get name ts with
  | Some r => Some r
  | None => Tasks_get name ts'
  end.
Proof.
  induction ts as [|[n r] ts IH]; simpl; [done|].
  by case_decide.
Qed.

Lemma Tasks_get_snoc_ne n name (r : ref) ts :
  name ≠ n → Tasks_get n (ts ++ [(name, r)]) = Tasks_get n ts.
Proof.
  intros Hn. rewrite Tasks_get_app. destruct (Tasks_get n ts); [done|].
  simpl. by rewrite decide_False.
Qed.

Lemma Tasks_get_None name ts :
  Tasks_get name ts = None ↔ name ∉ ts.*1.
Proof.
  induction ts as [|[n r] ts IH]; simpl.
  - split; [intros _; apply not_elem_of_nil | done].
  - rewrite not_elem_of_cons. case_decide as Hn.
    + split; [done | intros [Hne _]; congruence].
    + rewrite IH.
      split; [intros Hts; split; [congruence | done] | by intros [_ Hts]].
Qed.

Lemma Tasks_get_is_Some name ts :
  is_Some (Tasks_get name ts) ↔ name ∈ ts.*1.
Proof.
  rewrite <- not_eq_None_Some, Tasks_get_None.
  split; [apply dec_stable | auto].
Qed.

Lemma Tasks_get_elem_of name ts r :
  Tasks_get name ts = Some r → r ∈ Tasks_all ts.
Proof.
  unfold Tasks_all. induction ts as [|[n r'] ts IH]; simpl; [done|].
  case_decide; intros Hget.
  - simplify_eq. left.
  - right. auto.
Qed.

Lemma Tasks_get_filter_eq name ts :
  Tasks_get name (filter (λ e, e.1 ≠ name) ts) = None.
Proof.
  apply Tasks_get_None. intros (e & -> & He)%list_elem_of_fmap.
  by apply list_elem_of_filter in He as [? _].
Qed.

Lemma Tasks_get_filter_ne name n ts :
  n ≠ name →
  Tasks_get n (filter (λ e, e.1 ≠ name) ts) = Tasks_get n ts.
Proof.
  intros Hn. induction ts as [|[m r] ts IH]; [done|].
  rewrite filter_cons. simpl.
  destruct (decide (m ≠ name)) as [Hm|Hm%dec_stable]; simpl.
  - by rewrite IH.
  - case_decide; [congruence | done].
Qed.

Lemma Tasks_addTask_fresh name options p :
  Tasks_get name (tasks p) = None →
  Tasks_addTask name options p =
    (inr (length (heap p)),
     set_tasks (tasks p ++ [(name, length (heap p))])
       (set_heap (heap p ++ [Task_new name options]) p)).
Proof.
  intros H. unfold Tasks_addTask, mbind, M_bind, gets. by rewrite H.
Qed.

(** After [prune_others r], no task of the list other than [r] spawns [r]. *)
Lemma prune_others_spec (r t : ref) ts h T :
  t ∈ Tasks_all ts → t ≠ r →
  prune_others r ts h !! t = Some T → r ∉ task_spawns T.
Proof.
  unfold prune_others. intros Ht Hne.
  assert (Hin : t ∈ filter (λ t, t ≠ r) (Tasks_all ts))
    by by apply list_elem_of_filter.
  revert Hin T. generalize (filter (λ t, t ≠ r) (Tasks_all ts)).
  clear Ht. intros l. induction l as [|a l IH]; intros Hin T; simpl.
  - by apply elem_of_nil in Hin.
  - destruct (decide (a = t)) as [->|Hat].
    + rewrite list_lookup_alter_eq.
      destruct (foldr _ h l !! t) as [T0|]; simpl; [|done].
      intros [= <-]. simpl.
      intros [Hr _]%list_elem_of_filter. by apply Hr.
    + rewrite list_lookup_alter_ne by done.
      apply IH. apply elem_of_cons in Hin as [->|Hin]; done.
Qed.

(** ** Claims on the registry and the tasks *)

(** C2: adding a task under a name that the registry already holds fails
    with [DuplicateTaskError], and the project it is called on is left as it
    was: the same tasks, with the same contents, in the same order. *)
Theorem addTask_duplicate_unchanged (p : StandardProject) name props :
  name ∈ (tasks p).*1 →
  addTask name props p = (inl (DuplicateTaskError name), p).
Proof.
  intros [r Hr]%Tasks_get_is_Some.
  unfold addTask, Tasks_addTask, mbind, M_bind, gets. by rewrite Hr.
Qed.

(** C5: [t.spawn(t)] fails with [SelfSpawnError] and changes nothing; for a
    child other than [t], [spawn] appends the child at the end of the spawn
    list of [t] and leaves the other tasks and the registry alone. *)
Theorem Task_spawn_self_or_append (p : StandardProject) (t : ref) :
  Task_spawn t t p = (inl SelfSpawnError, p) ∧
  ∀ c T, c ≠ t → heap p !! t = Some T →
    ∃ p', Task_spawn t c p = (inr tt, p')
      ∧ heap p' !! t = Some (push_spawn c T)
      ∧ task_spawns (push_spawn c T) = task_spawns T ++ [c]
      ∧ (∀ r, r ≠ t → heap p' !! r = heap p !! r)
      ∧ tasks p' = tasks p.
Proof.
  split.
  - unfold Task_spawn. by rewrite decide_True.
  - intros c T Hc HT. unfold Task_spawn. rewrite decide_False by done.
    eexists. split; [reflexivity|]. cbn [heap set_heap tasks]. repeat split.
    + by rewrite list_lookup_alter_eq, HT.
    + intros r Hr. by rewrite list_lookup_alter_ne.
Qed.

(** C6: [removeTask] of a name that is not registered returns the absent
    marker, raises nothing and leaves the project as it was; of a registered
    name it returns the task, takes the name out of the registry, so that
    [get] of that name is absent afterwards, and keeps the other names. *)
Theorem removeTask_absent_or_present (p : StandardProject) name :
  (name ∉ (tasks p).*1 → removeTask name p = (inr None, p)) ∧
  (∀ r, Tasks_get name (tasks p) = Some r →
     ∃ p', removeTask name p = (inr (Some r), p')
       ∧ tasks p' = filter (λ e, e.1 ≠ name) (tasks p)
       ∧ (name ∉ (tasks p').*1)
       ∧ Tasks_get name (tasks p') = None
       ∧ ∀ n, n ≠ name → Tasks_get n (tasks p') = Tasks_get n (tasks p)).
Proof.
  unfold removeTask, Tasks_removeTask, mbind, M_bind, gets. split.
  - intros H%Tasks_get_None. by rewrite H.
  - intros r Hr. rewrite Hr. eexists. split; [reflexivity|]. simpl.
    split; [done|]. split; [apply Tasks_get_None, Tasks_get_filter_eq|].
    split; [apply Tasks_get_filter_eq|].
    intros n Hn. by apply Tasks_get_filter_ne.
Qed.

(** The spawn lists of the tasks that stay registered no longer mention the
    removed task. *)
Lemma removeTask_prunes (p p' : StandardProject) name r n t T :
  removeTask name p = (inr (Some r), p') →
  Tasks_get n (tasks p') = Some t → t ≠ r →
  heap p' !! t = Some T → r ∉ task_spawns T.
Proof.
  unfold removeTask, Tasks_removeTask, mbind, M_bind, gets.
  destruct (Tasks_get name (tasks p)) as [r'|]; [|done].
  intros [= -> <-]. cbn [heap tasks set_heap set_tasks].
  intros Hn%Tasks_get_elem_of Hne. by apply prune_others_spec.
Qed.

(** C7: [runTaskCommand] changes no state, and its result is the fixed
    prefix, the version and the name of the task: two calls on tasks of the
    same name under the same version return the same string, whatever the
    projects they are made on. *)
Theorem runTaskCommand_pure (V : string) (p : StandardProject) (t : ref) :
  (runTaskCommand V t p).2 = p ∧
  ∀ (p2 : StandardProject) (t2 : ref) T T2,
    heap p !! t = Some T → heap p2 !! t2 = Some T2 →
    task_name T = task_name T2 →
    (runTaskCommand V t p).1 = inr ("npx projen@" +:+ V +:+ " " +:+ task_name T)
    ∧ (runTaskCommand V t2 p2).1 = (runTaskCommand V t p).1.
Proof.
  unfold runTaskCommand, mbind, M_bind, deref. split.
  - by destruct (heap p !! t).
  - intros p2 t2 T T2 -> -> ->. done.
Qed.

(** C10: [addPackageIgnore] returns and leaves the whole project as it
    was, for every pattern. *)
Theorem addPackageIgnore_noop (pattern : string) (p : StandardProject) :
  addPackageIgnore pattern p = (inr tt, p).
Proof. reflexivity. Qed.

(** [addGitIgnore], by contrast, records its pattern. *)
Lemma addGitIgnore_records (pattern : string) (p : StandardProject) :
  if_entries (gitignore (addGitIgnore pattern p).2)
  = if_entries (gitignore p) ++ [AddPatterns pattern].
Proof. reflexivity. Qed.

(** ** Renovatebot *)

Lemma Set_values_foldl (xs seen : list string) :
  NoDup seen →
  let out := foldl (λ seen x, if decide (x ∈ seen) then seen else seen ++ [x])
               seen xs in
  NoDup out ∧ ∀ x, x ∈ out ↔ x ∈ seen ∨ x ∈ xs.
Proof.
  revert seen. induction xs as [|y xs IH]; intros seen Hseen; simpl.
  - split; [done|]. intros x. rewrite elem_of_nil. tauto.
  - case_decide as Hy.
    + destruct (IH seen Hseen) as [Hnd Hin]. split; [done|].
      intros x. rewrite Hin, elem_of_cons.
      split; [tauto|]. intros [?|[->|?]]; tauto.
    + destruct (IH (seen ++ [y])) as [Hnd Hin].
      { apply NoDup_app. repeat split; [done| |apply NoDup_singleton].
        intros x Hx ->%list_elem_of_singleton. done. }
      split; [done|]. intros x.
      rewrite Hin, elem_of_app, list_elem_of_singleton, elem_of_cons. tauto.
Qed.

Lemma Set_values_NoDup xs : NoDup (Set_values xs).
Proof. apply (Set_values_foldl xs []), NoDup_nil_2. Qed.

Lemma elem_of_Set_values x xs : x ∈ Set_values xs ↔ x ∈ xs.
Proof.
  destruct (Set_values_foldl xs [] (NoDup_nil_2)) as [_ Hin].
  unfold Set_values. rewrite Hin, elem_of_nil. tauto.
Qed.

(** C8: the [ignoreDeps] list of the renovate.json5 that
    [createRenovateConfiguration] emits has no duplicates, for every
    dependency list of the project and every list of explicit ignores; it
    holds the names of the dependencies with a version and the explicit
    ignores, each once. *)
Theorem renovate_ignoreDeps_unique (bot : Renovatebot) (p : StandardProject) :
  let ignoreDeps := cfg_ignoreDeps (renovateConfig bot (all (deps p))) in
  createRenovateConfiguration bot p =
    (inr tt,
     set_files
       (files p ++
          [ {| jf_path := "renovate.json5";
               jf_obj := RenovateObj (renovateConfig bot (all (deps p)));
               jf_omitEmpty := None;
               jf_committed := Some true |} ]) p)
  ∧ NoDup ignoreDeps
  ∧ ∀ x, x ∈ ignoreDeps ↔
      (∃ dep, dep ∈ all (deps p) ∧ truthy (dep_version dep) ∧ dep_name dep = x)
      ∨ x ∈ rb_explicitIgnores bot.
Proof.
  split; [reflexivity|]. split; [apply Set_values_NoDup|].
  intros x. simpl. unfold renovateIgnore.
  rewrite elem_of_Set_values, elem_of_app, list_elem_of_fmap.
  setoid_rewrite list_elem_of_filter. split.
  - intros [(dep & -> & Hv & Hdep)|Hx]; [left; by exists dep | by right].
  - intros [(dep & Hdep & Hv & <-)|Hx]; [left; by exists dep | by right].
Qed.

(** C9: a renovatebot constructed with [ignoreProjen] other than [false]
    emits "projen" among the [ignoreDeps] of its configuration, and one
    constructed without [scheduleInterval] emits the schedule
    ["at any time"], whatever the project it is synthesized on. *)
Theorem renovatebot_defaults (options : option RenovatebotOptions)
  (p q : StandardProject) :
  ∃ bot p' config q',
    Renovatebot_new options p = (inr bot, p')
    ∧ createRenovateConfiguration bot q = (inr tt, q')
    ∧ last (files q') =
        Some {| jf_path := "renovate.json5"; jf_obj := RenovateObj config;
                jf_omitEmpty := None; jf_committed := Some true |}
    ∧ (options ≫= ignoreProjen ≠ Some false → "projen" ∈ cfg_ignoreDeps config)
    ∧ (options ≫= scheduleInterval = None →
       cfg_schedule config = ["at any time"]).
Proof.
  eexists _, _, _, _. split; [reflexivity|]. split; [reflexivity|].
  split; [cbn [files set_files]; apply last_snoc|]. split.
  - intros Hopt. simpl. unfold renovateIgnore.
    rewrite elem_of_Set_values, elem_of_app. right.
    destruct options as [[s i [[]|] l]|]; simpl in *;
      rewrite ?elem_of_app, ?list_elem_of_singleton; auto; congruence.
  - intros Hopt. simpl. destruct options as [[[s|] i ip l]|]; done.
Qed.

(** ** Reasoning in the monad *)

Lemma returns_value {A} (m : M A) p x p' (Q : A → StandardProject → Prop) :
  m p = (inr x, p') → Q x p' → returns m p Q.
Proof. intros Hm HQ. by exists x, p'. Qed.

Lemma returns_bind {A B} (m : M A) (f : A → M B) p
  (Q : B → StandardProject → Prop) :
  returns m p (λ x p', returns (f x) p' Q) → returns (m ≫= f) p Q.
Proof.
  intros (x & p' & Hm & y & p'' & Hf & HQ). exists y, p''.
  split; [|done]. unfold mbind, M_bind. by rewrite Hm.
Qed.

Lemma returns_unit (m : M unit) p (Q : StandardProject → Prop) :
  returns m p (λ _ p', Q p') → ∃ p', m p = (inr tt, p') ∧ Q p'.
Proof. intros ([] & p' & Hm & HQ). eauto. Qed.

(** ** The frame of the collaborating constructors *)

Lemma task_frame_refl p : task_frame p p.
Proof. split; eauto. Qed.

Lemma task_frame_trans p q r : task_frame p q → task_frame q r → task_frame p r.
Proof.
  intros [H1 H2 H3 H4 H5 H6 H7] [K1 K2 K3 K4 K5 K6 K7].
  split; try congruence.
  intros t T HT. destruct (H5 t T HT) as (T' & HT' & Hn & Hs).
  destruct (K5 t T' HT') as (T'' & HT'' & Hn' & Hs').
  exists T''. repeat split; congruence.
Qed.

Lemma returns_collaborator {A} (c : M A) p (Q : A → StandardProject → Prop) :
  collaborator c → (∀ x p', task_frame p p' → Q x p') → returns c p Q.
Proof.
  intros Hc HQ. destruct (Hc p) as (x & p' & Hx & Hf). exists x, p'. auto.
Qed.

Lemma collaborator_ret {A} (x : A) : collaborator (mret x).
Proof. intros p. exists x, p. split; [done | apply task_frame_refl]. Qed.

Lemma collaborator_bind {A B} (m : M A) (f : A → M B) :
  collaborator m → (∀ x, collaborator (f x)) → collaborator (m ≫= f).
Proof.
  intros Hm Hf p. apply returns_bind.
  apply returns_collaborator; [done|]. intros x p' Hp.
  apply returns_collaborator; [done|]. intros y p'' Hp'.
  by apply task_frame_trans with p'.
Qed.

Lemma collaborator_modify (f : StandardProject → StandardProject) :
  (∀ p, task_frame p (f p)) → collaborator (modify f).
Proof. intros Hf p. exists tt, (f p). auto. Qed.

Lemma Renovatebot_new_collaborator options :
  collaborator (Renovatebot_new options).
Proof.
  apply collaborator_bind; [|intros; apply collaborator_ret].
  apply collaborator_modify. intros p. split; eauto.
Qed.

Lemma ensureTask_collaborator name :
  name ≠ DEFAULT_TASK → name ≠ "eject" → collaborator (ensureTask name).
Proof.
  intros Hd He p. unfold ensureTask, returns, mbind, M_bind, gets.
  destruct (Tasks_get name (tasks p)) as [r|] eqn:Hget.
  - exists r, p. split; [done | apply task_frame_refl].
  - rewrite Tasks_addTask_fresh by done. eexists _, _. split; [done|].
    split; cbn [ejected projenCommand defaultTask ejectTask heap tasks
                set_tasks set_heap]; try done.
    + intros r T HT. exists T. split; [by apply lookup_app_l_Some | done].
    + by apply Tasks_get_snoc_ne.
    + by apply Tasks_get_snoc_ne.
Qed.

Lemma sample_ProjectBuild_collaborator : collaborator sample_ProjectBuild.
Proof.
  unfold sample_ProjectBuild.
  repeat (apply collaborator_bind; [by apply ensureTask_collaborator | intros ?]).
  apply collaborator_ret.
Qed.

Lemma sample_Dependencies_collaborator : collaborator sample_Dependencies.
Proof. apply collaborator_ret. Qed.

Lemma sample_Projenrc_collaborator o : collaborator (sample_Projenrc o).
Proof. apply collaborator_ret. Qed.

(** ** The mode fields under the calls *)

Lemma call_mode V (c : Call) (p : StandardProject) :
  ejected (call V c p) = ejected p
  ∧ projenCommand (call V c p) = projenCommand p
  ∧ defaultTask (call V c p) = defaultTask p
  ∧ ejectTask (call V c p) = ejectTask p.
Proof.
  destruct c; simpl;
    unfold addTask, Tasks_addTask, removeTask, Tasks_removeTask,
      runTaskCommand, deref, Task_spawn, mbind, M_bind, gets; simpl.
  - by destruct (Tasks_get _ _).
  - by destruct (Tasks_get _ _).
  - by destruct (heap p !! task).
  - done.
  - done.
  - done.
  - by case_decide.
Qed.

Lemma run_mode V (cs : list Call) (p : StandardProject) :
  ejected (run V cs p) = ejected p
  ∧ projenCommand (run V cs p) = projenCommand p
  ∧ defaultTask (run V cs p) = defaultTask p
  ∧ ejectTask (run V cs p) = ejectTask p.
Proof.
  revert p. induction cs as [|c cs IH]; intros p; simpl; [done|].
  destruct (IH (call V c p)) as (H1 & H2 & H3 & H4).
  destruct (call_mode V c p) as (K1 & K2 & K3 & K4).
  unfold run in *. repeat split; congruence.
Qed.

(** ** Construction *)

Section Constructed.

Variable PROJEN_VERSION FILE_MANIFEST gitattributes_path : string.
Variable ProjenrcOptions : Type.
Variable ProjectBuild_new : M ProjectBuild.
Variable Dependencies_new : M Dependencies.
Variable Projenrc_new : option ProjenrcOptions → M unit.

Hypothesis ProjectBuild_collaborator : collaborator ProjectBuild_new.
Hypothesis Dependencies_collaborator : collaborator Dependencies_new.
Hypothesis Projenrc_collaborator : ∀ o, collaborator (Projenrc_new o).

Abbreviation new := (StandardProject_new FILE_MANIFEST gitattributes_path
  ProjenrcOptions ProjectBuild_new Dependencies_new Projenrc_new).

(** One statement of the constructor, run on the state reached so far. *)
Ltac step :=
  apply returns_bind; eapply returns_value;
  [lazy -[eject_task_options]; reflexivity|]; cbv beta.

(** The statements after the mode switch stay within the frame. *)
Ltac collaborators :=
  lazymatch goal with
  | |- collaborator (mret _) => apply collaborator_ret
  | |- collaborator (modify _) =>
      apply collaborator_modify; intros ?; split; by eauto
  | |- collaborator (Renovatebot_new _) => apply Renovatebot_new_collaborator
  | |- collaborator (_ ≫= _) =>
      apply collaborator_bind; [collaborators | intros ?; collaborators]
  | |- collaborator (if ?b then _ else _) => destruct b; collaborators
  | |- _ => done
  end.

Ltac by_frame := first [assumption | etrans; [eassumption | reflexivity]].

Lemma new_ejected options :
  ∃ p, new true options = (inr tt, p)
    ∧ ejected p = true
    ∧ projenCommand p = "scripts/run-task"
    ∧ defaultTask p = None
    ∧ ejectTask p = None
    ∧ Tasks_get DEFAULT_TASK (tasks p) = None
    ∧ Tasks_get "eject" (tasks p) = None.
Proof.
  apply returns_unit.
  unfold StandardProject_new, StandardProject_constructor.
  do 11 step.
  apply returns_collaborator; [collaborators|].
  intros _ p [He Hc Hd Hj _ Hrd Hrj].
  repeat split; by_frame.
Qed.

Lemma new_normal options :
  ∃ p, new false options = (inr tt, p)
    ∧ ejected p = false
    ∧ projenCommand p = default "npx projen" (opt_projenCommand _ options)
    ∧ defaultTask p = Some 0
    ∧ ejectTask p = Some 1
    ∧ Tasks_get DEFAULT_TASK (tasks p) = Some 0
    ∧ Tasks_get "eject" (tasks p) = Some 1
    ∧ ∃ D E, heap p !! 0 = Some D ∧ task_name D = DEFAULT_TASK
        ∧ heap p !! 1 = Some E ∧ task_name E = "eject"
        ∧ task_spawns E = [0].
Proof.
  apply returns_unit.
  unfold StandardProject_new, StandardProject_constructor.
  do 11 step.
  apply returns_collaborator; [collaborators|].
  intros _ p [He Hc Hd Hj Hh Hrd Hrj].
  destruct (Hh 0 _ eq_refl) as (D & HD & HDn & _).
  destruct (Hh 1 _ eq_refl) as (E & HE & HEn & HEs).
  do 6 (split; [by_frame|]).
  exists D, E. repeat split; by_frame.
Qed.

(** C1, as amended: a project constructed in ejected mode has no task
    registered as "default", neither [defaultTask] nor [ejectTask], and
    "scripts/run-task" as its [projenCommand]; [runTaskCommand] returns
    "npx projen@<version> <name>" for each of its tasks, and changes
    nothing. *)
Theorem ejected_no_default_task options :
  ∃ p, new true options = (inr tt, p)
    ∧ (DEFAULT_TASK ∉ (tasks p).*1)
    ∧ defaultTask p = None
    ∧ ejectTask p = None
    ∧ projenCommand p = "scripts/run-task"
    ∧ ∀ (t : ref) T, heap p !! t = Some T →
        runTaskCommand PROJEN_VERSION t p
        = (inr ("npx projen@" +:+ PROJEN_VERSION +:+ " " +:+ task_name T), p).
Proof.
  destruct (new_ejected options) as (p & Hp & He & Hc & Hd & Hj & Hrd & Hrj).
  exists p. repeat split; try done.
  - by apply Tasks_get_None.
  - intros t T HT. unfold runTaskCommand, mbind, M_bind, deref. by rewrite HT.
Qed.

(** C3: construction returns a project in the mode it was started in;
    [defaultTask] and [ejectTask] are both present if the project is not
    ejected and both absent if it is, and they are the tasks registered as
    "default" and "eject"; no sequence of calls on the project changes the
    mode or either field. *)
Theorem mode_fixed_at_construction (ejecting : bool) options :
  ∃ p, new ejecting options = (inr tt, p)
    ∧ ejected p = ejecting
    ∧ (is_Some (defaultTask p) ↔ ejecting = false)
    ∧ (is_Some (ejectTask p) ↔ ejecting = false)
    ∧ Tasks_get DEFAULT_TASK (tasks p) = defaultTask p
    ∧ Tasks_get "eject" (tasks p) = ejectTask p
    ∧ ∀ cs, ejected (run PROJEN_VERSION cs p) = ejecting
        ∧ defaultTask (run PROJEN_VERSION cs p) = defaultTask p
        ∧ ejectTask (run PROJEN_VERSION cs p) = ejectTask p.
Proof.
  assert (∃ p, new ejecting options = (inr tt, p)
    ∧ ejected p = ejecting
    ∧ (is_Some (defaultTask p) ↔ ejecting = false)
    ∧ (is_Some (ejectTask p) ↔ ejecting = false)
    ∧ Tasks_get DEFAULT_TASK (tasks p) = defaultTask p
    ∧ Tasks_get "eject" (tasks p) = ejectTask p) as (p & Hp & He & H).
  { destruct ejecting.
    - destruct (new_ejected options)
        as (p & Hp & He & Hc & Hd & Hj & Hrd & Hrj).
      exists p. rewrite Hd, Hj, Hrd, Hrj.
      repeat split; try done; by intros [? ?].
    - destruct (new_normal options)
        as (p & Hp & He & Hc & Hd & Hj & Hrd & Hrj & _).
      exists p. rewrite Hd, Hj, Hrd, Hrj. repeat split; eauto. }
  exists p. split; [done|]. split; [done|].
  destruct H as (H1 & H2 & H3 & H4). do 4 (split; [done|]).
  intros cs. destruct (run_mode PROJEN_VERSION cs p) as (K1 & _ & K3 & K4).
  repeat split; congruence.
Qed.

(** C4: a project constructed in normal mode has a default task and an
    eject task, and the spawn list of the eject task is the default task
    and nothing else. *)
Theorem eject_spawns_default options :
  ∃ p d e D E, new false options = (inr tt, p)
    ∧ defaultTask p = Some d ∧ ejectTask p = Some e
    ∧ heap p !! d = Some D ∧ task_name D = DEFAULT_TASK
    ∧ heap p !! e = Some E ∧ task_name E = "eject"
    ∧ task_spawns E = [d]
    ∧ spawn_names p E = ["default"].
Proof.
  destruct (new_normal options)
    as (p & Hp & _ & _ & Hd & Hj & _ & _ & D & E & HD & HDn & HE & HEn & HEs).
  exists p, 0, 1, D, E. repeat split; try done.
  unfold spawn_names. rewrite HEs. simpl. rewrite HD. simpl. by rewrite HDn.
Qed.

End Constructed.

(** ** The claims at the sample instance *)

Lemma addTask_duplicate_unchanged_witness :
  addTask "default" None (sample_new false).2
  = (inl (DuplicateTaskError "default"), (sample_new false).2).
Proof.
  apply addTask_duplicate_unchanged. vm_compute. left.
Defined.

Lemma Task_spawn_self_or_append_witness :
  Task_spawn 1 1 (sample_new false).2 = (inl SelfSpawnError, (sample_new false).2)
  ∧ ∃ p', Task_spawn 1 7 (sample_new false).2 = (inr tt, p')
      ∧ task_spawns <$> heap p' !! 1 = Some [0; 7].
Proof.
  destruct (Task_spawn_self_or_append (sample_new false).2 1) as [Hself Happ].
  split; [exact Hself|].
  destruct (Happ 7 (push_spawn 0 (Task_new "eject" eject_task_options)))
    as (p' & Hp' & HT & _); [lia | vm_compute; reflexivity |].
  exists p'. split; [exact Hp'|]. rewrite HT. reflexivity.
Defined.

Lemma removeTask_absent_or_present_witness :
  removeTask "lint" (sample_new false).2 = (inr None, (sample_new false).2)
  ∧ ∃ p', removeTask "default" (sample_new false).2 = (inr (Some 0), p')
      ∧ Tasks_get "default" (tasks p') = None.
Proof.
  destruct (removeTask_absent_or_present (sample_new false).2 "lint")
    as [Habsent _].
  destruct (removeTask_absent_or_present (sample_new false).2 "default")
    as [_ Hpresent].
  split.
  - apply Habsent. apply Tasks_get_None. vm_compute. reflexivity.
  - destruct (Hpresent 0) as (p' & Hp' & _ & _ & Hget & _);
      [vm_compute; reflexivity|].
    exists p'. split; [exact Hp' | exact Hget].
Defined.

Lemma runTaskCommand_pure_witness :
  (runTaskCommand sample_version 5 (sample_new true).2).1
  = inr "npx projen@0.0.0 build"
  ∧ (runTaskCommand sample_version 7 (sample_new false).2).1
    = (runTaskCommand sample_version 5 (sample_new true).2).1.
Proof.
  apply (proj2 (runTaskCommand_pure sample_version (sample_new true).2 5)
           (sample_new false).2 7
           (Task_new "build" no_options) (Task_new "build" no_options));
    vm_compute; reflexivity.
Defined.

Lemma renovatebot_defaults_witness :
  ∃ bot p' config q',
    Renovatebot_new None (Project_super false) = (inr bot, p')
    ∧ createRenovateConfiguration bot (sample_new false).2 = (inr tt, q')
    ∧ "projen" ∈ cfg_ignoreDeps config
    ∧ cfg_schedule config = ["at any time"].
Proof.
  destruct (renovatebot_defaults None (Project_super false) (sample_new false).2)
    as (bot & p' & config & q' & Hnew & Hcreate & _ & Hignore & Hschedule).
  exists bot, p', config, q'.
  split; [exact Hnew|]. split; [exact Hcreate|].
  split; [apply Hignore; discriminate | apply Hschedule; reflexivity].
Defined.

Lemma ejected_no_default_task_witness :
  ∃ p, sample_new true = (inr tt, p)
    ∧ (DEFAULT_TASK ∉ (tasks p).*1)
    ∧ projenCommand p = "scripts/run-task"
    ∧ runTaskCommand sample_version 5 p = (inr "npx projen@0.0.0 build", p).
Proof.
  destruct (ejected_no_default_task sample_version ".projen/files.json"
              ".gitattributes" string sample_ProjectBuild sample_Dependencies
              sample_Projenrc sample_ProjectBuild_collaborator
              sample_Dependencies_collaborator sample_Projenrc_collaborator
              sample_options)
    as (p & Hp & Hdefault & _ & _ & Hcommand & Hrun).
  exists p. split; [exact Hp|]. split; [exact Hdefault|].
  split; [exact Hcommand|].
  apply (Hrun 5 (Task_new "build" no_options)).
  assert (Hq : (sample_new true).2 = p) by exact (f_equal snd Hp).
  rewrite <- Hq. vm_compute. reflexivity.
Defined.

Lemma mode_fixed_at_construction_witness :
  ∃ p, sample_new false = (inr tt, p)
    ∧ is_Some (defaultTask p) ∧ is_Some (ejectTask p)
    ∧ defaultTask
        (run sample_version [CallRemoveTask "default"; CallAddTask "default" None] p)
      = defaultTask p.
Proof.
  destruct (mode_fixed_at_construction sample_version ".projen/files.json"
              ".gitattributes" string sample_ProjectBuild sample_Dependencies
              sample_Projenrc sample_ProjectBuild_collaborator
              sample_Dependencies_collaborator sample_Projenrc_collaborator
              false sample_options)
    as (p & Hp & _ & Hd & Hj & _ & _ & Hrun).
  exists p. split; [exact Hp|].
  split; [apply Hd; reflexivity|]. split; [apply Hj; reflexivity|].
  apply Hrun.
Defined.

Lemma eject_spawns_default_witness :
  ∃ p d e D E, sample_new false = (inr tt, p)
    ∧ defaultTask p = Some d ∧ ejectTask p = Some e
    ∧ heap p !! d = Some D ∧ task_name D = DEFAULT_TASK
    ∧ heap p !! e = Some E ∧ task_name E = "eject"
    ∧ task_spawns E = [d]
    ∧ spawn_names p E = ["default"].
Proof.
  exact (eject_spawns_default ".projen/files.json" ".gitattributes" string
           sample_ProjectBuild sample_Dependencies sample_Projenrc
           sample_ProjectBuild_collaborator sample_Dependencies_collaborator
           sample_Projenrc_collaborator sample_options).
Defined.

(** C1, as the spec states it, fails: on the sample project constructed in
    ejected mode, [runTaskCommand] of the build task and of the test task
    return the versioned npx form, which is not the local-script command
    "scripts/run-task" of the project and differs from one task to the
    other. *)
Lemma runTaskCommand_ejected_counterexample :
  (sample_new true).1 = inr tt
  ∧ ejected (sample_new true).2 = true
  ∧ projenCommand (sample_new true).2 = "scripts/run-task"
  ∧ buildTask (sample_new true).2 = Some 5
  ∧ testTask (sample_new true).2 = Some 3
  ∧ (runTaskCommand sample_version 5 (sample_new true).2).1
    = inr "npx projen@0.0.0 build"
  ∧ (runTaskCommand sample_version 3 (sample_new true).2).1
    = inr "npx projen@0.0.0 test"
  ∧ (runTaskCommand sample_version 5 (sample_new true).2).1
    ≠ inr (projenCommand (sample_new true).2)
  ∧ (runTaskCommand sample_version 5 (sample_new true).2).1
    ≠ (runTaskCommand sample_version 3 (sample_new true).2).1.
Proof.
  vm_compute. repeat split; discriminate.
Qed.

(** ** The model on the sample project *)

Example sample_normal_tasks :
  (tasks (sample_new false).2).*1
  = ["default"; "eject"; "pre-compile"; "compile"; "post-compile"; "test";
     "package"; "build"].
Proof. vm_compute. reflexivity. Qed.

Example sample_ejected_tasks :
  (tasks (sample_new true).2).*1
  = ["pre-compile"; "compile"; "post-compile"; "test"; "package"; "build"].
Proof. vm_compute. reflexivity. Qed.

Example sample_remove_default_prunes_eject :
  task_spawns <$> heap (removeTask "default" (sample_new false).2).2 !! 1
  = Some [].
Proof. vm_compute. reflexivity. Qed.

Example sample_renovateIgnore :
  renovateIgnore (mkRenovatebot ["a"; "projen"; "a"] [] None)
    [mkDependency "b" (Some "1"); mkDependency "a" (Some "^2");
     mkDependency "c" None; mkDependency "d" (Some "");
     mkDependency "b" (Some "3")]
  = ["b"; "a"; "projen"].
Proof. vm_compute. reflexivity. Qed.

(** * Further properties *)

(** ** The renovatebot configuration *)



Lemma renovateIgnore_Set_values bot ds :
  renovateIgnore bot ds = Set_values (renovateInput bot ds).
Proof. reflexivity. Qed.



(** X3: a dependency whose version is undefined or the empty string does
    not show in the configuration: with or without it, wherever it stands
    in the list, the configuration is the same. *)
Theorem unversioned_dependency_not_ignored (bot : Renovatebot)
  (ds1 ds2 : list Dependency) (dep : Dependency) :
  truthy (dep_version dep) = false →
  renovateConfig bot (ds1 ++ dep :: ds2) = renovateConfig bot (ds1 ++ ds2).
Proof.
  intros Hv. unfold renovateConfig, renovateIgnore.
  rewrite !filter_app, filter_cons.
  destruct (decide (truthy (dep_version dep))) as [Ht|_]; [|done].
  rewrite Hv in Ht. done.
Qed.

Lemma unversioned_dependency_not_ignored_witness :
  renovateConfig (mkRenovatebot ["projen"] ["at any time"] None)
    ([mkDependency "jest" (Some "^29")]
       ++ mkDependency "left-pad" (Some "") :: [mkDependency "cdk" None])
  = renovateConfig (mkRenovatebot ["projen"] ["at any time"] None)
      ([mkDependency "jest" (Some "^29")] ++ [mkDependency "cdk" None]).
Proof.
  apply unversioned_dependency_not_ignored. reflexivity.
Defined.

(** X4: the constructor of [Renovatebot] changes nothing of the project
    but its components, and the options pass through to the configuration:
    [labels] as given, a given [scheduleInterval] as given, also when it is
    the empty list, and every name of [options.ignore] among the
    [ignoreDeps]. *)
Theorem renovatebot_options_pass_through (options : RenovatebotOptions)
  (p : StandardProject) (ds : list Dependency) :
  ∃ bot,
    Renovatebot_new (Some options) p
    = (inr bot, set_components (components p ++ [RenovatebotComponent bot]) p)
    ∧ cfg_labels (renovateConfig bot ds) = labels options
    ∧ (∀ s, scheduleInterval options = Some s →
         cfg_schedule (renovateConfig bot ds) = s)
    ∧ (∀ x, x ∈ default [] (ignore options) →
         x ∈ cfg_ignoreDeps (renovateConfig bot ds)).
Proof.
  eexists. split; [reflexivity|]. split; [reflexivity|]. split.
  - intros s Hs. simpl. by rewrite Hs.
  - intros x Hx. cbn [cfg_ignoreDeps renovateConfig].
    rewrite renovateIgnore_Set_values, elem_of_Set_values.
    unfold renovateInput. simpl. rewrite elem_of_app. right.
    destruct (default true (ignoreProjen options)); [|done].
    rewrite elem_of_app. by left.
Qed.

Lemma renovatebot_options_pass_through_witness :
  ∃ bot,
    cfg_schedule (renovateConfig bot []) = []
    ∧ "aws-cdk" ∈ cfg_ignoreDeps (renovateConfig bot [])
    ∧ (Renovatebot_new
         (Some (mkRenovatebotOptions (Some []) (Some ["aws-cdk"]) None None))
         (Project_super false)).1 = inr bot.
Proof.
  destruct (renovatebot_options_pass_through
              (mkRenovatebotOptions (Some []) (Some ["aws-cdk"]) None None)
              (Project_super false) [])
    as (bot & Hnew & _ & Hschedule & Hignore).
  exists bot. split; [apply Hschedule; reflexivity|].
  split; [apply Hignore; left | exact (f_equal fst Hnew)].
Defined.

(** ** Sequences of calls *)

Lemma call_gitignore V (c : Call) (p : StandardProject) :
  gitignore (call V c p)
  = {| if_path := if_path (gitignore p);
       if_entries := if_entries (gitignore p) ++ gitignore_trace [c] |}.
Proof.
  destruct c; simpl;
    unfold addTask, Tasks_addTask, removeTask, Tasks_removeTask,
      runTaskCommand, deref, Task_spawn, mbind, M_bind, gets; simpl;
    rewrite ?app_nil_r.
  - destruct (Tasks_get _ _); simpl; by destruct (gitignore p).
  - destruct (Tasks_get _ _); simpl; by destruct (gitignore p).
  - destruct (heap p !! task); simpl; by destruct (gitignore p).
  - by destruct (gitignore p).
  - done.
  - by destruct (gitignore p).
  - case_decide; simpl; by destruct (gitignore p).
Qed.

Lemma call_gitattributes V (c : Call) (p : StandardProject) :
  gitattributes (call V c p)
  = {| ga_path := ga_path (gitattributes p);
       ga_attributes := ga_attributes (gitattributes p) ++ gitattributes_trace [c] |}.
Proof.
  destruct c; simpl;
    unfold addTask, Tasks_addTask, removeTask, Tasks_removeTask,
      runTaskCommand, deref, Task_spawn, mbind, M_bind, gets; simpl;
    rewrite ?app_nil_r.
  - destruct (Tasks_get _ _); simpl; by destruct (gitattributes p).
  - destruct (Tasks_get _ _); simpl; by destruct (gitattributes p).
  - destruct (heap p !! task); simpl; by destruct (gitattributes p).
  - by destruct (gitattributes p).
  - by destruct (gitattributes p).
  - done.
  - case_decide; simpl; by destruct (gitattributes p).
Qed.

Lemma gitignore_trace_cons c cs :
  gitignore_trace (c :: cs) = gitignore_trace [c] ++ gitignore_trace cs.
Proof. unfold gitignore_trace. simpl. by destruct c. Qed.

Lemma gitattributes_trace_cons c cs :
  gitattributes_trace (c :: cs)
  = gitattributes_trace [c] ++ gitattributes_trace cs.
Proof. unfold gitattributes_trace. simpl. by destruct c. Qed.

(** X7: over any sequence of calls, the .gitignore file keeps its path
    and receives exactly one [addPatterns(pattern)] for each
    [addGitIgnore(pattern)], in call order, after what it held; no other
    method touches it. *)
Theorem run_gitignore_trace V (cs : list Call) (p : StandardProject) :
  if_path (gitignore (run V cs p)) = if_path (gitignore p)
  ∧ if_entries (gitignore (run V cs p))
    = if_entries (gitignore p) ++ gitignore_trace cs.
Proof.
  revert p. induction cs as [|c cs IH]; intros p.
  - split; [done|]. unfold gitignore_trace. simpl. by rewrite app_nil_r.
  - change (run V (c :: cs) p) with (run V cs (call V c p)).
    destruct (IH (call V c p)) as [-> ->].
    rewrite (gitignore_trace_cons c cs), call_gitignore.
    cbn [if_path if_entries]. by rewrite <- app_assoc.
Qed.

(** X8: over any sequence of calls, the .gitattributes file keeps its path
    and receives exactly one [addAttributes(glob, "linguist-generated")] for
    each [annotateGenerated(glob)], in call order, after what it held; no
    other method touches it. *)
Theorem run_gitattributes_trace V (cs : list Call) (p : StandardProject) :
  ga_path (gitattributes (run V cs p)) = ga_path (gitattributes p)
  ∧ ga_attributes (gitattributes (run V cs p))
    = ga_attributes (gitattributes p) ++ gitattributes_trace cs.
Proof.
  revert p. induction cs as [|c cs IH]; intros p.
  - split; [done|]. unfold gitattributes_trace. simpl. by rewrite app_nil_r.
  - change (run V (c :: cs) p) with (run V cs (call V c p)).
    destruct (IH (call V c p)) as [-> ->].
    rewrite (gitattributes_trace_cons c cs), call_gitattributes.
    cbn [ga_path ga_attributes]. by rewrite <- app_assoc.
Qed.

Lemma call_components V (c : Call) (p : StandardProject) :
  files (call V c p) = files p
  ∧ deps (call V c p) = deps p
  ∧ components (call V c p) = components p
  ∧ projectBuild (call V c p) = projectBuild p.
Proof.
  destruct c; simpl;
    unfold addTask, Tasks_addTask, removeTask, Tasks_removeTask,
      runTaskCommand, deref, Task_spawn, mbind, M_bind, gets; simpl.
  - by destruct (Tasks_get _ _).
  - by destruct (Tasks_get _ _).
  - by destruct (heap p !! task).
  - done.
  - done.
  - done.
  - by case_decide.
Qed.

(** X9: no sequence of calls registers a file or a component, or changes
    the dependencies or the project build: the getters [buildTask] and
    [testTask] keep returning what they returned. *)
Theorem run_leaves_components V (cs : list Call) (p : StandardProject) :
  files (run V cs p) = files p
  ∧ deps (run V cs p) = deps p
  ∧ components (run V cs p) = components p
  ∧ projectBuild (run V cs p) = projectBuild p
  ∧ buildTask (run V cs p) = buildTask p
  ∧ testTask (run V cs p) = testTask p.
Proof.
  revert p. induction cs as [|c cs IH]; intros p; [done|].
  change (run V (c :: cs) p) with (run V cs (call V c p)).
  destruct (IH (call V c p)) as (H1 & H2 & H3 & H4 & H5 & H6).
  destruct (call_components V c p) as (K1 & K2 & K3 & K4).
  unfold buildTask, testTask in *.
  repeat split; congruence.
Qed.

Lemma prune_others_lookup (r t : ref) ts (h : list Task) T :
  h !! t = Some T →
  ∃ T', prune_others r ts h !! t = Some T' ∧ task_name T' = task_name T.
Proof.
  intros HT. unfold prune_others.
  induction (filter (λ t, t ≠ r) (Tasks_all ts)) as [|a l IH]; simpl.
  - by exists T.
  - destruct IH as (T' & HT' & Hn).
    destruct (decide (a = t)) as [->|Hat].
    + rewrite list_lookup_alter_eq, HT'. by exists (prune r T').
    + rewrite list_lookup_alter_ne by done. by exists T'.
Qed.

Lemma call_heap V (c : Call) (p : StandardProject) (r : ref) T :
  heap p !! r = Some T →
  ∃ T', heap (call V c p) !! r = Some T' ∧ task_name T' = task_name T.
Proof.
  intros HT. destruct c; simpl;
    unfold addTask, Tasks_addTask, removeTask, Tasks_removeTask,
      runTaskCommand, deref, Task_spawn, mbind, M_bind, gets; simpl.
  - destruct (Tasks_get _ _); simpl; [by exists T|].
    exists T. split; [by apply lookup_app_l_Some | done].
  - destruct (Tasks_get _ _); simpl; [|by exists T].
    by apply prune_others_lookup.
  - destruct (heap p !! task); by exists T.
  - by exists T.
  - by exists T.
  - by exists T.
  - case_decide; simpl; [by exists T|].
    destruct (decide (this = r)) as [->|Hne].
    + rewrite list_lookup_alter_eq, HT. by exists (push_spawn child T).
    + rewrite list_lookup_alter_ne by done. by exists T.
Qed.

Lemma run_heap V (cs : list Call) (p : StandardProject) (r : ref) T :
  heap p !! r = Some T →
  ∃ T', heap (run V cs p) !! r = Some T' ∧ task_name T' = task_name T.
Proof.
  revert p T. induction cs as [|c cs IH]; intros p T HT; [by exists T|].
  change (run V (c :: cs) p) with (run V cs (call V c p)).
  destruct (call_heap V c p r T HT) as (T1 & HT1 & Hn1).
  destruct (IH _ _ HT1) as (T2 & HT2 & Hn2).
  exists T2. split; [done | congruence].
Qed.

(** X10: a task keeps its command: whatever calls are made on the project
    (tasks added, removed, spawned), [runTaskCommand] of a task that exists
    returns "npx projen@<version> <name>" with the name the task had, the
    same string as before the calls. *)
Theorem runTaskCommand_stable V (cs : list Call) (p : StandardProject)
  (t : ref) T :
  heap p !! t = Some T →
  runTaskCommand V t (run V cs p)
  = (inr ("npx projen@" +:+ V +:+ " " +:+ task_name T), run V cs p)
  ∧ (runTaskCommand V t (run V cs p)).1 = (runTaskCommand V t p).1.
Proof.
  intros HT. destruct (run_heap V cs p t T HT) as (T' & HT' & Hn).
  unfold runTaskCommand, mbind, M_bind, deref.
  rewrite HT, HT'. simpl. by rewrite Hn.
Qed.

Lemma runTaskCommand_stable_witness :
  runTaskCommand sample_version 0
    (run sample_version
       [CallRemoveTask "default"; CallAddTask "default" None; CallSpawn 0 1]
       (sample_new false).2)
  = (inr "npx projen@0.0.0 default",
     run sample_version
       [CallRemoveTask "default"; CallAddTask "default" None; CallSpawn 0 1]
       (sample_new false).2).
Proof.
  apply (proj1 (runTaskCommand_stable sample_version
                  [CallRemoveTask "default"; CallAddTask "default" None;
                   CallSpawn 0 1]
                  (sample_new false).2 0
                  (Task_new DEFAULT_TASK default_task_options)
                  ltac:(vm_compute; reflexivity))).
Defined.

(** ** Construction *)










Section ConstructedFurther.

Variable PROJEN_VERSION FILE_MANIFEST gitattributes_path : string.
Variable ProjenrcOptions : Type.
Variable ProjectBuild_new : M ProjectBuild.
Variable Dependencies_new : M Dependencies.
Variable Projenrc_new : option ProjenrcOptions → M unit.

Abbreviation new' := (StandardProject_new FILE_MANIFEST gitattributes_path
  ProjenrcOptions ProjectBuild_new Dependencies_new Projenrc_new).

Ltac step :=
  apply returns_bind; eapply returns_value;
  [lazy -[eject_task_options]; reflexivity|]; cbv beta.



Hypothesis ProjectBuild_collaborator : collaborator ProjectBuild_new.
Hypothesis Dependencies_collaborator : collaborator Dependencies_new.
Hypothesis Projenrc_collaborator : ∀ o, collaborator (Projenrc_new o).

(** X6: [projenCommand] is "scripts/run-task" in ejected mode, whatever
    [options.projenCommand] says; in normal mode it is
    [options.projenCommand], "npx projen" when that is omitted; no sequence
    of calls changes it. *)
Theorem projenCommand_by_mode (ejecting : bool) options :
  ∃ p, new' ejecting options = (inr tt, p)
    ∧ projenCommand p
      = (if ejecting then "scripts/run-task"
         else default "npx projen" (opt_projenCommand _ options))
    ∧ ∀ cs, projenCommand (run PROJEN_VERSION cs p) = projenCommand p.
Proof.
  assert (∃ p, new' ejecting options = (inr tt, p)
    ∧ projenCommand p
      = (if ejecting then "scripts/run-task"
         else default "npx projen" (opt_projenCommand _ options)))
    as (p & Hp & Hc).
  { destruct ejecting.
    - destruct (new_ejected FILE_MANIFEST gitattributes_path ProjenrcOptions
                  ProjectBuild_new Dependencies_new Projenrc_new
                  ProjectBuild_collaborator Dependencies_collaborator
                  Projenrc_collaborator options) as (p & Hp & _ & Hc & _).
      by exists p.
    - destruct (new_normal FILE_MANIFEST gitattributes_path ProjenrcOptions
                  ProjectBuild_new Dependencies_new Projenrc_new
                  ProjectBuild_collaborator Dependencies_collaborator
                  Projenrc_collaborator options) as (p & Hp & _ & Hc & _).
      by exists p. }
  exists p. split; [done|]. split; [done|].
  intros cs. by destruct (run_mode PROJEN_VERSION cs p) as (_ & H & _).
Qed.

(** X11: on a project constructed in normal mode, [addTask("default")]
    and [addTask("eject")] fail with [DuplicateTaskError] and change
    nothing; on a project constructed in ejected mode both names are free:
    the call registers a task under the name, and [defaultTask] and
    [ejectTask] stay undefined. *)
Theorem reserved_task_names (ejecting : bool) options name props :
  name = DEFAULT_TASK ∨ name = "eject" →
  ∃ p, new' ejecting options = (inr tt, p)
    ∧ if ejecting
      then ∃ t p', addTask name props p = (inr t, p')
             ∧ Tasks_get name (tasks p') = Some t
             ∧ defaultTask p' = None ∧ ejectTask p' = None
      else addTask name props p = (inl (DuplicateTaskError name), p).
Proof.
  intros Hname. destruct ejecting.
  - destruct (new_ejected FILE_MANIFEST gitattributes_path ProjenrcOptions
                ProjectBuild_new Dependencies_new Projenrc_new
                ProjectBuild_collaborator Dependencies_collaborator
                Projenrc_collaborator options)
      as (p & Hp & _ & _ & Hd & Hj & Hrd & Hrj).
    exists p. split; [done|].
    assert (Tasks_get name (tasks p) = None) as Hfree
      by (destruct Hname as [-> | ->]; done).
    unfold addTask. rewrite Tasks_addTask_fresh by done.
    eexists _, _. split; [reflexivity|].
    cbn [tasks set_tasks set_heap defaultTask ejectTask].
    split; [|done].
    rewrite Tasks_get_app, Hfree. simpl. by rewrite decide_True.
  - destruct (new_normal FILE_MANIFEST gitattributes_path ProjenrcOptions
                ProjectBuild_new Dependencies_new Projenrc_new
                ProjectBuild_collaborator Dependencies_collaborator
                Projenrc_collaborator options)
      as (p & Hp & _ & _ & _ & _ & Hrd & Hrj & _).
    exists p. split; [done|].
    unfold addTask, Tasks_addTask, mbind, M_bind, gets.
    destruct Hname as [-> | ->]; [by rewrite Hrd | by rewrite Hrj].
Qed.

(** X5: with [options.renovatebot] set, construction registers, as the
    last component of the project, the renovatebot that [renovatebotOptions]
    describe, in both modes; its [preSynthesize] on the constructed project
    registers renovate.json5 with the configuration for the dependencies of
    that project. *)
Theorem renovatebot_option_registers (ejecting : bool) options :
  default false (opt_renovatebot _ options) = true →
  ∃ p bot, new' ejecting options = (inr tt, p)
    ∧ last (components p) = Some (RenovatebotComponent bot)
    ∧ (∀ q, (Renovatebot_new (opt_renovatebotOptions _ options) q).1 = inr bot)
    ∧ ∃ p', preSynthesize bot p = (inr tt, p')
        ∧ last (files p')
          = Some (renovate_json5 (renovateConfig bot (all (deps p)))).
Proof.
  intros Hopt.
  cut (returns (StandardProject_constructor FILE_MANIFEST gitattributes_path
         ProjenrcOptions ProjectBuild_new Dependencies_new Projenrc_new options)
         (Project_super ejecting)
         (λ _ p, ∃ bot, last (components p) = Some (RenovatebotComponent bot)
           ∧ (∀ q, (Renovatebot_new (opt_renovatebotOptions _ options) q).1
                   = inr bot)
           ∧ ∃ p', preSynthesize bot p = (inr tt, p')
               ∧ last (files p')
                 = Some (renovate_json5 (renovateConfig bot (all (deps p)))))).
  { intros ([] & p & Hp & bot & H). by exists p, bot. }
  unfold StandardProject_constructor. rewrite Hopt.
  assert (∀ p1, returns
    (pb ← ProjectBuild_new;
     modify (set_projectBuild (Some pb));;
     ds ← Dependencies_new;
     modify (set_deps ds);;
     (if default false (opt_projenrcJson _ options)
      then Projenrc_new (opt_projenrcJsonOptions _ options) else mret tt);;
     Renovatebot_new (opt_renovatebotOptions _ options);; mret tt) p1
    (λ _ p, ∃ bot, last (components p) = Some (RenovatebotComponent bot)
       ∧ (∀ q, (Renovatebot_new (opt_renovatebotOptions _ options) q).1
               = inr bot)
       ∧ ∃ p', preSynthesize bot p = (inr tt, p')
           ∧ last (files p')
             = Some (renovate_json5 (renovateConfig bot (all (deps p))))))
    as Htail.
  { intros p1.
    apply returns_bind, returns_collaborator; [done|]. intros pb p2 _.
    apply returns_bind. eapply returns_value; [reflexivity|].
    apply returns_bind, returns_collaborator; [done|]. intros ds p3 _.
    apply returns_bind. eapply returns_value; [reflexivity|].
    apply returns_bind.
    apply returns_collaborator.
    { destruct (default false (opt_projenrcJson _ options));
        [done | apply collaborator_ret]. }
    intros _ p4 _.
    apply returns_bind. eapply returns_value; [reflexivity|].
    eapply returns_value; [reflexivity|].
    eexists. split; [cbn [components set_components]; apply last_snoc|].
    split; [done|].
    eexists. split; [reflexivity|].
    cbn [files set_files]. apply last_snoc. }
  destruct ejecting; do 11 step; apply Htail.
Qed.

(** X13: on a project constructed in normal mode, [runTaskCommand] of the
    default task is "npx projen@<version> default" and of the eject task
    "npx projen@<version> eject", right after construction and after any
    sequence of calls. *)
Theorem runTaskCommand_default_eject options (cs : list Call) :
  ∃ p d e, new' false options = (inr tt, p)
    ∧ defaultTask (run PROJEN_VERSION cs p) = Some d
    ∧ ejectTask (run PROJEN_VERSION cs p) = Some e
    ∧ (runTaskCommand PROJEN_VERSION d (run PROJEN_VERSION cs p)).1
      = inr ("npx projen@" +:+ PROJEN_VERSION +:+ " default")
    ∧ (runTaskCommand PROJEN_VERSION e (run PROJEN_VERSION cs p)).1
      = inr ("npx projen@" +:+ PROJEN_VERSION +:+ " eject").
Proof.
  destruct (new_normal FILE_MANIFEST gitattributes_path ProjenrcOptions
              ProjectBuild_new Dependencies_new Projenrc_new
              ProjectBuild_collaborator Dependencies_collaborator
              Projenrc_collaborator options)
    as (p & Hp & _ & _ & Hd & Hj & _ & _ & D & E & HD & HDn & HE & HEn & _).
  destruct (run_mode PROJEN_VERSION cs p) as (_ & _ & Kd & Kj).
  destruct (run_heap PROJEN_VERSION cs p 0 D HD) as (D' & HD' & HDn').
  destruct (run_heap PROJEN_VERSION cs p 1 E HE) as (E' & HE' & HEn').
  exists p, 0, 1. split; [done|].
  split; [congruence|]. split; [congruence|].
  unfold runTaskCommand, mbind, M_bind, deref. rewrite HD', HE'. simpl.
  by rewrite HDn', HDn, HEn', HEn.
Qed.

End ConstructedFurther.

(** ** The further properties at the sample instance *)


Lemma projenCommand_by_mode_witness :
  ∃ p, sample_new false = (inr tt, p)
    ∧ projenCommand p = "npx projen"
    ∧ projenCommand (run sample_version [CallAddGitIgnore "dist/"] p)
      = projenCommand p.
Proof.
  destruct (projenCommand_by_mode sample_version ".projen/files.json"
              ".gitattributes" string sample_ProjectBuild sample_Dependencies
              sample_Projenrc sample_ProjectBuild_collaborator
              sample_Dependencies_collaborator sample_Projenrc_collaborator
              false sample_options)
    as (p & Hp & Hcommand & Hrun).
  exists p. split; [exact Hp|]. split; [exact Hcommand | apply Hrun].
Defined.

Lemma reserved_task_names_witness :
  ∃ p, sample_new false = (inr tt, p)
    ∧ addTask "eject" None p = (inl (DuplicateTaskError "eject"), p).
Proof.
  exact (reserved_task_names ".projen/files.json" ".gitattributes" string
           sample_ProjectBuild sample_Dependencies sample_Projenrc
           sample_ProjectBuild_collaborator sample_Dependencies_collaborator
           sample_Projenrc_collaborator false sample_options "eject" None
           (or_intror eq_refl)).
Defined.

Lemma renovatebot_option_registers_witness :
  ∃ p bot, sample_new true = (inr tt, p)
    ∧ last (components p) = Some (RenovatebotComponent bot)
    ∧ rb_explicitIgnores bot = ["projen"].
Proof.
  destruct (renovatebot_option_registers ".projen/files.json" ".gitattributes"
              string sample_ProjectBuild sample_Dependencies sample_Projenrc
              sample_ProjectBuild_collaborator sample_Dependencies_collaborator
              sample_Projenrc_collaborator true sample_options eq_refl)
    as (p & bot & Hp & Hlast & Hbot & _).
  exists p, bot. split; [exact Hp|]. split; [exact Hlast|].
  specialize (Hbot (Project_super true)). by injection Hbot as <-.
Defined.

Lemma runTaskCommand_default_eject_witness :
  ∃ p d e, sample_new false = (inr tt, p)
    ∧ defaultTask (run sample_version [CallRemoveTask "default"] p) = Some d
    ∧ ejectTask (run sample_version [CallRemoveTask "default"] p) = Some e
    ∧ (runTaskCommand sample_version d
         (run sample_version [CallRemoveTask "default"] p)).1
      = inr "npx projen@0.0.0 default"
    ∧ (runTaskCommand sample_version e
         (run sample_version [CallRemoveTask "default"] p)).1
      = inr "npx projen@0.0.0 eject".
Proof.
  exact (runTaskCommand_default_eject sample_version ".projen/files.json"
           ".gitattributes" string sample_ProjectBuild sample_Dependencies
           sample_Projenrc sample_ProjectBuild_collaborator
           sample_Dependencies_collaborator sample_Projenrc_collaborator
           sample_options [CallRemoveTask "default"]).
Defined.
